(** * TDLC label generator: one QR code and one Code128 barcode

    Shallow embedding of [src/utils/barcode_qr/tdlc_barcode_qr_python.py].
    The script is straight-line Python: three imports, a QR block
    ([qrcode.make] then [img.save]) and a barcode block
    ([barcode.get_barcode_class], [ImageWriter()], the [Code128]
    constructor, [code.save]).  It defines no function, takes no argument
    and contains no [try], loop or branch.

    The two imaging libraries are third-party code.  They enter the model as
    an interface ([Libraries]); what the specification says about them is a
    separate contract ([Lawful], [Installed]).  Everything that is proved
    about the script alone is proved for every implementation of the
    interface. *)

From Stdlib Require Import String Ascii List NArith Lia.
From stdpp Require Import base gmap strings list fin_maps.

Open Scope string_scope.

(** ** Python values and failures *)

Abbreviation bytes := (list Byte.byte).

(** The exceptions the two libraries and the file system are documented to
    raise; [OtherError] stands for any exception not named here. *)
Inductive exn : Type :=
| ModuleNotFoundError (name : string)
| DataOverflowError
| BarcodeNotFoundError (name : string)
| IllegalCharacterError (payload : string)
| PermissionError (path : string)
| OtherError (msg : string).

Inductive result (A : Type) : Type :=
| Ok (a : A)
| Raise (e : exn).
Arguments Ok {A} a.
Arguments Raise {A} e.

Definition is_ok {A} (r : result A) : bool :=
  match r with Ok _ => true | Raise _ => false end.

(** ** What a run can observe *)

(** One entry per import statement or call expression of the script, with
    the literal the script passes. *)
Inductive call : Type :=
| Import (module : string)
| ImportFrom (module name : string)
| QrMake (data : string)
| ImageSave (path : string)
| GetBarcodeClass (name : string)
| NewImageWriter
| NewBarcode (code : string)
| BarcodeSave (base : string).

Inductive outcome : Type :=
| Returned
| Raised (e : exn).

Definition event : Type := call * outcome.

(** The process state: the files on disk, the paths that cannot be opened
    for writing, and the calls made so far (oldest first). *)
Record State : Type := mkState {
  files : gmap string bytes;
  locked : gset string;
  trace : list event
}.

Definition log (c : call) (o : outcome) (σ : State) : State :=
  {| files := files σ; locked := locked σ; trace := trace σ ++ [(c, o)] |}.

(** [open(path, 'wb')] followed by a write: the whole content is replaced,
    or the open fails and nothing changes. *)
Definition write_file (path : string) (data : bytes) (σ : State)
  : result unit * State :=
  if decide (path ∈ locked σ) then (Raise (PermissionError path), σ)
  else (Ok tt,
        {| files := <[path := data]> (files σ);
           locked := locked σ; trace := trace σ |}).

(** ** The script monad: state, plus an exception that stops the run *)

Definition Prog (A : Type) : Type := State → result A * State.

#[export] Instance prog_ret : MRet Prog := λ A a σ, (Ok a, σ).

(** Sequencing of two statements.  An exception of the first skips the
    second and keeps the state reached so far: nothing is rolled back. *)
#[export] Instance prog_bind : MBind Prog := λ A B f m σ,
  match m σ with
  | (Ok a, σ') => f a σ'
  | (Raise e, σ') => (Raise e, σ')
  end.

(** A library call: run it, then record how it ended. *)
Definition invoke {A} (c : call) (op : State → result A * State) : Prog A :=
  λ σ, match op σ with
       | (Ok a, σ') => (Ok a, log c Returned σ')
       | (Raise e, σ') => (Raise e, log c (Raised e) σ')
       end.

Definition pure_op {A} (r : result A) : State → result A * State :=
  λ σ, (r, σ).

(** ** The two libraries *)

Class Libraries : Type := {
  (** [import m] and [from m import x] *)
  import_module : string → result unit;
  import_from : string → string → result unit;
  (** qrcode: [make(data)] gives an image object that can be serialised *)
  qr_image : Type;
  qrcode_make : string → result qr_image;
  qr_image_png : qr_image → bytes;
  qr_capacity : nat;
  (** python-barcode: symbology lookup, writer, constructor, renderer *)
  barcode_class : Type;
  get_barcode_class : string → result barcode_class;
  image_writer : Type;
  ImageWriter_new : result image_writer;
  writer_ext : image_writer → string;
  barcode_obj : Type;
  barcode_new : barcode_class → string → image_writer → result barcode_obj;
  barcode_render : barcode_obj → image_writer → result bytes
}.

Section Script.
Context {L : Libraries}.

(** [img.save(path)]: the image is written to exactly [path]. *)
Definition image_save (img : qr_image) (path : string)
  : State → result unit * State :=
  write_file path (qr_image_png img).

(** The file name [code.save(base)] writes to: the writer appends its own
    extension to the base name it is given. *)
Definition barcode_filename (wr : image_writer) (base : string) : string :=
  base ++ "." ++ writer_ext wr.

(** [code.save(base)]: render first, then let the writer store the result
    under [base] plus its extension.  [wr] is the writer the barcode
    object was constructed with. *)
Definition barcode_save (code : barcode_obj) (wr : image_writer)
    (base : string) : State → result unit * State :=
  λ σ, match barcode_render code wr with
       | Ok data => write_file (barcode_filename wr base) data σ
       | Raise e => (Raise e, σ)
       end.

(** Lines 10-11, with the two literals as parameters. *)
Definition generate_qr (url path : string) : Prog unit :=
  img ← invoke (QrMake url) (pure_op (qrcode_make url));
  invoke (ImageSave path) (image_save img path).

(** Lines 14-16, with the two literals as parameters.  Python evaluates
    the argument [ImageWriter()] before it calls [Code128]. *)
Definition generate_barcode (payload base : string) : Prog unit :=
  Code128 ← invoke (GetBarcodeClass "code128")
                   (pure_op (get_barcode_class "code128"));
  wr ← invoke NewImageWriter (pure_op ImageWriter_new);
  code ← invoke (NewBarcode payload) (pure_op (barcode_new Code128 payload wr));
  invoke (BarcodeSave base) (barcode_save code wr base).

Definition order_url : string :=
  "https://www.thednalabstore.com/order/ORD-2025-001".
Definition qr_path : string := "qr.png".
Definition barcode_payload : string := "ORD-2025-001|TS-001".
Definition barcode_base : string := "barcode".

Definition imports : Prog unit :=
  invoke (Import "qrcode") (pure_op (import_module "qrcode"));;
  invoke (Import "barcode") (pure_op (import_module "barcode"));;
  invoke (ImportFrom "barcode.writer" "ImageWriter")
         (pure_op (import_from "barcode.writer" "ImageWriter")).

(** The whole module, top to bottom. *)
Definition script : Prog unit :=
  imports;;
  generate_qr order_url qr_path;;
  generate_barcode barcode_payload barcode_base.

(** A run starts with an empty call log. *)
Definition boot (fs : gmap string bytes) (ro : gset string) : State :=
  {| files := fs; locked := ro; trace := [] |}.

Definition run (fs : gmap string bytes) (ro : gset string)
  : result unit * State :=
  script (boot fs ro).
End Script.

(** ** The order the labels are for *)

(** The order identifier and the SKU occur in the script only inside its
    two literals: the identifier is the last path segment of the URL and
    the part of the barcode payload before the bar, the SKU is the part
    after it. *)
Definition order_id : string := "ORD-2025-001".
Definition sku : string := "TS-001".

(** The calls of a complete run, in program order. *)
Definition script_calls : list call :=
  [ Import "qrcode"; Import "barcode";
    ImportFrom "barcode.writer" "ImageWriter";
    QrMake "https://www.thednalabstore.com/order/ORD-2025-001";
    ImageSave "qr.png";
    GetBarcodeClass "code128"; NewImageWriter;
    NewBarcode "ORD-2025-001|TS-001";
    BarcodeSave "barcode" ].

Definition calls_of (t : list event) : list call := map fst t.

(** The payload strings a run handed to the two encoders. *)
Definition encoder_payloads (t : list event) : list string :=
  flat_map (λ ev, match fst ev with
                  | QrMake d => [d]
                  | NewBarcode d => [d]
                  | _ => []
                  end) t.

(** The names a run passed to the two [save] methods. *)
Definition is_save (c : call) : bool :=
  match c with
  | ImageSave _ | BarcodeSave _ => true
  | _ => false
  end.

Definition save_calls (t : list event) : list call :=
  List.filter is_save (calls_of t).

(** ** The contract of the libraries *)

(** Modelled from the spec: the character set of the Code128 symbology,
    which is not part of this repository.  The specification describes it
    as the full ASCII character set, that is, the codes 0 to 127. *)
Definition code128_supported (c : ascii) : bool :=
  (N_of_ascii c <? 128)%N.

Definition code128_encodable (s : string) : bool :=
  forallb code128_supported (list_ascii_of_string s).

(** A QR reader and a Code128 reader: what a scanner recovers from the
    bytes of an image file, if anything. *)
Class Readers : Type := {
  qr_decode : bytes → option string;
  code128_decode : bytes → option string
}.

(** Modelled from the spec: the behaviour of the two third-party encoders,
    which are not part of this repository.  The QR encoder fails exactly
    when the payload exceeds its capacity; the barcode constructor fails
    exactly when the payload has a character outside the symbology;
    rendering a constructed barcode succeeds; and an image read back by the
    matching reader yields the payload it was made from. *)
Class Lawful (L : Libraries) (R : Readers) : Prop := {
  qr_make_capacity : ∀ s,
    is_ok (qrcode_make s) = true ↔ (String.length s ≤ qr_capacity)%nat;
  qr_roundtrip : ∀ s img,
    qrcode_make s = Ok img → qr_decode (qr_image_png img) = Some s;
  code128_known : is_ok (get_barcode_class "code128") = true;
  code128_charset : ∀ cls s wr,
    get_barcode_class "code128" = Ok cls →
    is_ok (barcode_new cls s wr) = code128_encodable s;
  code128_renders : ∀ code wr, is_ok (barcode_render code wr) = true;
  code128_roundtrip : ∀ cls s wr code data,
    get_barcode_class "code128" = Ok cls →
    barcode_new cls s wr = Ok code →
    barcode_render code wr = Ok data →
    code128_decode data = Some s
}.

(** The environment has both packages and an imaging backend. *)
Class Installed (L : Libraries) : Prop := {
  qrcode_installed : import_module "qrcode" = Ok tt;
  barcode_installed : import_module "barcode" = Ok tt;
  writer_importable : import_from "barcode.writer" "ImageWriter" = Ok tt;
  writer_constructs : is_ok ImageWriter_new = true
}.

(** ** A reference implementation of the interface

    A small encoder pair that meets the contract: an image file is a
    four-byte tag followed by the payload bytes.  It shows that the
    contract can be met and gives the concrete runs used below. *)
Module Ref.

Definition qr_tag : bytes := list_byte_of_string "QR00".
Definition c128_tag : bytes := list_byte_of_string "C128".

Fixpoint strip (tag data : bytes) : option bytes :=
  match tag, data with
  | [], _ => Some data
  | t :: tag', d :: data' =>
      if Byte.eqb t d then strip tag' data' else None
  | _ :: _, [] => None
  end.

Definition read_tagged (tag data : bytes) : option string :=
  string_of_list_byte <$> strip tag data.

Definition known_modules : list string := ["qrcode"; "barcode"].

#[export] Instance libs : Libraries := {|
  import_module m :=
    if bool_decide (m ∈ known_modules) then Ok tt
    else Raise (ModuleNotFoundError m);
  import_from m x :=
    if bool_decide (m = "barcode.writer" ∧ x = "ImageWriter") then Ok tt
    else Raise (ModuleNotFoundError m);
  qr_image := string;
  qrcode_make s :=
    if bool_decide (String.length s ≤ 2331)%nat then Ok s
    else Raise DataOverflowError;
  qr_image_png img := (qr_tag ++ list_byte_of_string img)%list;
  qr_capacity := 2331;
  barcode_class := unit;
  get_barcode_class n :=
    if bool_decide (n = "code128") then Ok tt
    else Raise (BarcodeNotFoundError n);
  image_writer := unit;
  ImageWriter_new := Ok tt;
  writer_ext _ := "png";
  barcode_obj := string;
  barcode_new _ s _ :=
    if code128_encodable s then Ok s else Raise (IllegalCharacterError s);
  barcode_render code _ := Ok (c128_tag ++ list_byte_of_string code)%list
|}.

#[export] Instance readers : Readers := {|
  qr_decode := read_tagged qr_tag;
  code128_decode := read_tagged c128_tag
|}.

End Ref.

(** ** An environment that lacks a package *)

(** The libraries [L] in an environment where [import m] finds no module
    named [m]; everything else is as in [L]. *)
Definition without_package (m : string) (L : Libraries) : Libraries := {|
  import_module x :=
    if bool_decide (x = m) then Raise (ModuleNotFoundError m)
    else @import_module L x;
  import_from := @import_from L;
  qr_image := @qr_image L;
  qrcode_make := @qrcode_make L;
  qr_image_png := @qr_image_png L;
  qr_capacity := @qr_capacity L;
  barcode_class := @barcode_class L;
  get_barcode_class := @get_barcode_class L;
  image_writer := @image_writer L;
  ImageWriter_new := @ImageWriter_new L;
  writer_ext := @writer_ext L;
  barcode_obj := @barcode_obj L;
  barcode_new := @barcode_new L;
  barcode_render := @barcode_render L
|}.

(** The libraries [L] in an environment without an imaging backend: the
    packages import, but calling [ImageWriter()] raises. *)
Definition without_image_writer (L : Libraries) : Libraries := {|
  import_module := @import_module L;
  import_from := @import_from L;
  qr_image := @qr_image L;
  qrcode_make := @qrcode_make L;
  qr_image_png := @qr_image_png L;
  qr_capacity := @qr_capacity L;
  barcode_class := @barcode_class L;
  get_barcode_class := @get_barcode_class L;
  image_writer := @image_writer L;
  ImageWriter_new := Raise (OtherError "ImageWriter is not callable");
  writer_ext := @writer_ext L;
  barcode_obj := @barcode_obj L;
  barcode_new := @barcode_new L;
  barcode_render := @barcode_render L
|}.

(** ** Reading a trace *)

Definition returned (ev : event) : bool :=
  match snd ev with Returned => true | Raised _ => false end.

(** How a run with call log [t] must have ended if no exception was ever
    swallowed: the fate of the last call is the fate of the run. *)
Definition verdict (t : list event) : result unit :=
  match List.last (map snd t) Returned with
  | Returned => Ok tt
  | Raised e => Raise e
  end.

(** * Proofs *)

(** ** The reference implementation meets the contract *)

Lemma strip_app (tag data : bytes) : Ref.strip tag (tag ++ data) = Some data.
Proof.
  induction tag as [|t tag IH]; simpl; [done|].
  by rewrite (Byte.byte_dec_lb eq_refl).
Qed.

Lemma read_tagged_app (tag : bytes) (s : string) :
  Ref.read_tagged tag (tag ++ list_byte_of_string s) = Some s.
Proof.
  unfold Ref.read_tagged. rewrite strip_app. simpl.
  by rewrite string_of_list_byte_of_string.
Qed.

Lemma ref_lawful : Lawful Ref.libs Ref.readers.
Proof.
  split; simpl.
  - intros s. case_bool_decide; simpl; split; (done || lia).
  - intros s img. case_bool_decide; [|done]. intros [= <-].
    exact (read_tagged_app Ref.qr_tag s).
  - done.
  - intros [] s []. intros _. by destruct (code128_encodable s).
  - done.
  - intros [] s [] code data _.
    destruct (code128_encodable s); [|done].
    intros [= <-] [= <-]. exact (read_tagged_app Ref.c128_tag s).
Qed.

Lemma ref_installed : Installed Ref.libs.
Proof. by split. Qed.

(** ** The literals *)

(** The order identifier of the barcode payload is the one the URL ends
    with. *)
Lemma order_url_ends_with_order_id :
  order_url = "https://www.thednalabstore.com/order/" ++ order_id.
Proof. reflexivity. Qed.

Lemma barcode_base_has_no_extension :
  ¬ In "."%char (list_ascii_of_string barcode_base).
Proof. simpl. intuition discriminate. Qed.

(** ** Stepping through the script *)

Ltac run_unfold :=
  unfold run, script, imports, generate_qr, generate_barcode, boot,
    mbind, prog_bind, invoke, pure_op, image_save, barcode_save,
    write_file, log in *;
  cbn [files locked trace fst snd] in *.

(** One case per place where the run can stop. *)
Ltac run_cases :=
  run_unfold;
  repeat (case_match; simplify_eq; cbn [files locked trace fst snd] in *).

Ltac inv_elem H :=
  repeat (apply elem_of_cons in H as [H|H]; [simplify_eq|]);
  try (by apply elem_of_nil in H).

Lemma qr_path_not_barcode `{L : Libraries} (wr : image_writer) :
  qr_path ≠ barcode_filename wr barcode_base.
Proof. unfold qr_path, barcode_filename, barcode_base. intros H. discriminate H. Qed.

Lemma returned_before_last (t pre post : list event) (c : call) (e : exn) :
  forallb returned (removelast t) = true →
  t = (pre ++ (c, Raised e) :: post)%list →
  post = [].
Proof.
  intros Hall ->. destruct post as [|ev post]; [done|].
  rewrite removelast_app in Hall by done.
  rewrite forallb_app in Hall. apply andb_prop in Hall as [_ Hall].
  simpl in Hall. done.
Qed.

Lemma verdict_snoc (pre : list event) (c : call) (o : outcome) :
  verdict (pre ++ [(c, o)]) =
  match o with Returned => Ok tt | Raised e => Raise e end.
Proof. unfold verdict. rewrite map_app. simpl. by rewrite List.last_last. Qed.

Section AnyLibraries.
Context {L : Libraries}.
Implicit Types (fs : gmap string bytes) (ro : gset string).

(** No call is made after one that raised. *)
Lemma run_stops_at_raise fs ro :
  forallb returned (removelast (trace (run fs ro).2)) = true.
Proof. run_cases; done. Qed.

(** The run ends the way its last call ended. *)
Lemma run_verdict fs ro : (run fs ro).1 = verdict (trace (run fs ro).2).
Proof.
  run_cases; unfold verdict; simpl; try done;
    repeat match goal with u : unit |- _ => destruct u end; done.
Qed.

Lemma run_calls_prefix fs ro :
  calls_of (trace (run fs ro).2) `prefix_of` script_calls.
Proof. run_cases; by eexists. Qed.

Lemma run_calls_complete fs ro :
  (run fs ro).1 = Ok tt → calls_of (trace (run fs ro).2) = script_calls.
Proof. run_cases; done. Qed.

Lemma run_locked fs ro : locked (run fs ro).2 = ro.
Proof. run_cases; done. Qed.
End AnyLibraries.

(** ** The two output files *)

(** C10.  The QR file name and the barcode file name differ whatever
    extension the writer appends, so the barcode block leaves the file at
    ['qr.png'] as it found it and the QR block leaves the barcode file as it
    found it. *)
Theorem outputs_do_not_overwrite_each_other (L : Libraries) :
  (∀ wr : image_writer, "qr.png" ≠ "barcode" ++ "." ++ writer_ext wr) ∧
  (∀ σ : State,
     files (generate_barcode barcode_payload barcode_base σ).2 !! qr_path
     = files σ !! qr_path) ∧
  (∀ (σ : State) (wr : image_writer),
     files (generate_qr order_url qr_path σ).2
       !! barcode_filename wr barcode_base
     = files σ !! barcode_filename wr barcode_base).
Proof.
  split; [|split].
  - intros wr. exact (qr_path_not_barcode wr).
  - intros σ. run_cases; try done.
    match goal with wr : image_writer |- _ =>
      by rewrite lookup_insert_ne by (symmetry; apply (qr_path_not_barcode wr))
    end.
  - intros σ wr. run_cases; try done.
    by rewrite lookup_insert_ne by apply (qr_path_not_barcode wr).
Qed.

(** C3.  A run never passes any name to a [save] method other than
    ['qr.png'] (first) and ['barcode'] (second, without extension).  A run
    that completes has written exactly two files: at ['qr.png'] the image
    the QR encoder made from the order URL, and at ['barcode'] followed by a
    dot and the extension of the image writer the rendering of the Code128
    object built from the order-and-SKU string; the two names differ. *)
Theorem two_artifacts_at_fixed_paths (L : Libraries)
    (fs : gmap string bytes) (ro : gset string) :
  save_calls (trace (run fs ro).2)
    `prefix_of` [ImageSave "qr.png"; BarcodeSave "barcode"] ∧
  ((run fs ro).1 = Ok tt →
   save_calls (trace (run fs ro).2)
     = [ImageSave "qr.png"; BarcodeSave "barcode"] ∧
   ∃ (img : qr_image) (cls : barcode_class) (wr : image_writer)
     (code : barcode_obj) (data : bytes),
     qrcode_make "https://www.thednalabstore.com/order/ORD-2025-001"
       = Ok img ∧
     get_barcode_class "code128" = Ok cls ∧
     ImageWriter_new = Ok wr ∧
     barcode_new cls "ORD-2025-001|TS-001" wr = Ok code ∧
     barcode_render code wr = Ok data ∧
     "qr.png" ≠ "barcode" ++ "." ++ writer_ext wr ∧
     files (run fs ro).2
     = <["barcode" ++ "." ++ writer_ext wr := data]>
         (<["qr.png" := qr_image_png img]> fs)).
Proof.
  split.
  - run_cases; by eexists.
  - run_cases; try done. intros _. split; [done|].
    match goal with wr : image_writer |- _ =>
      eexists _, _, wr, _, _; repeat split; try done;
      exact (qr_path_not_barcode wr)
    end.
Qed.

Lemma two_artifacts_witness :
  save_calls (trace (run (L:=Ref.libs) ∅ ∅).2)
    = [ImageSave "qr.png"; BarcodeSave "barcode"] ∧
  ∃ (img : string) (cls wr : unit) (code : string) (data : bytes),
    qrcode_make (Libraries:=Ref.libs)
      "https://www.thednalabstore.com/order/ORD-2025-001" = Ok img ∧
    get_barcode_class (Libraries:=Ref.libs) "code128" = Ok cls ∧
    ImageWriter_new (Libraries:=Ref.libs) = Ok wr ∧
    barcode_new (Libraries:=Ref.libs) cls "ORD-2025-001|TS-001" wr
      = Ok code ∧
    barcode_render (Libraries:=Ref.libs) code wr = Ok data ∧
    "qr.png" ≠ "barcode" ++ "." ++ "png" ∧
    files (run (L:=Ref.libs) ∅ ∅).2
    = <["barcode" ++ "." ++ "png" := data]>
        (<["qr.png" := qr_image_png (Libraries:=Ref.libs) img]> ∅).
Proof.
  apply (two_artifacts_at_fixed_paths Ref.libs ∅ ∅).
  vm_compute. reflexivity.
Defined.

(** C8.  A run changes nothing but the content of its two target files:
    write permissions stay as they were, no file is removed, every path
    other than the two targets keeps its content, and a target that was saved
    holds the new image whatever was stored there before. *)
Theorem only_the_two_targets_change (L : Libraries)
    (fs : gmap string bytes) (ro : gset string) :
  locked (run fs ro).2 = ro ∧
  dom fs ⊆ dom (files (run fs ro).2) ∧
  (∀ p : string,
     p ≠ qr_path →
     (∀ wr, ImageWriter_new = Ok wr → p ≠ barcode_filename wr barcode_base) →
     files (run fs ro).2 !! p = fs !! p) ∧
  (∀ img : qr_image,
     (ImageSave qr_path, Returned) ∈ trace (run fs ro).2 →
     qrcode_make order_url = Ok img →
     files (run fs ro).2 !! qr_path = Some (qr_image_png img)) ∧
  (∀ wr : image_writer,
     (BarcodeSave barcode_base, Returned) ∈ trace (run fs ro).2 →
     ImageWriter_new = Ok wr →
     ∃ (code : barcode_obj) (data : bytes),
       barcode_render code wr = Ok data ∧
       files (run fs ro).2 !! barcode_filename wr barcode_base = Some data).
Proof.
  split; [apply run_locked|]. split; [|split; [|split]].
  - run_cases; rewrite ?dom_insert_L; set_solver.
  - intros p Hqr Hbc. run_cases; try done.
    all: rewrite !lookup_insert_ne
           by first [ congruence | intros <-; by eapply Hbc ]; done.
  - intros img Hin Hmk. run_cases; inv_elem Hin.
    all: try by rewrite lookup_insert_eq.
    match goal with wr : image_writer |- _ =>
      rewrite lookup_insert_ne by (symmetry; apply (qr_path_not_barcode wr))
    end.
    by rewrite lookup_insert_eq.
  - intros wr Hin Hwr. run_cases; inv_elem Hin.
    eexists _, _. split; [done|]. by rewrite lookup_insert_eq.
Qed.

Lemma only_the_two_targets_change_witness :
  let fs : gmap string bytes :=
    {[ "qr.png" := [Byte.x00]; "notes.txt" := [Byte.x01] ]} in
  files (run (L:=Ref.libs) fs ∅).2 !! "notes.txt" = Some [Byte.x01] ∧
  files (run (L:=Ref.libs) fs ∅).2 !! "qr.png"
  = Some (qr_image_png (Libraries:=Ref.libs) order_url).
Proof.
  intros fs.
  destruct (only_the_two_targets_change Ref.libs fs ∅)
    as (_ & _ & Hframe & Hqr & _).
  split.
  - rewrite Hframe; [reflexivity | discriminate | intros [] _; discriminate].
  - apply Hqr; [|reflexivity].
    assert (trace (run (L:=Ref.libs) fs ∅).2
            = map (λ c, (c, Returned)) script_calls) as ->
      by (vm_compute; reflexivity).
    simpl. unfold qr_path. set_solver.
Defined.

(** ** The payloads *)

Section AnyLibraries.
Context {L : Libraries}.
Implicit Types (fs : gmap string bytes) (ro : gset string).

Lemma run_payloads_prefix fs ro :
  encoder_payloads (trace (run fs ro).2)
    `prefix_of` [order_url; barcode_payload].
Proof. run_cases; by eexists. Qed.

Lemma run_payloads_complete fs ro :
  (run fs ro).1 = Ok tt →
  encoder_payloads (trace (run fs ro).2) = [order_url; barcode_payload].
Proof. run_cases; done. Qed.

Lemma run_qr_payload fs ro (d : string) (o : outcome) :
  (QrMake d, o) ∈ trace (run fs ro).2 → d = order_url.
Proof. intros Hin. run_cases; inv_elem Hin; done. Qed.

Lemma run_barcode_payload fs ro (d : string) (o : outcome) :
  (NewBarcode d, o) ∈ trace (run fs ro).2 → d = barcode_payload.
Proof. intros Hin. run_cases; inv_elem Hin; done. Qed.
End AnyLibraries.

(** C6.  The script reads nothing: whatever the files on disk, the write
    permissions and the installed libraries, the QR encoder is only ever
    called with the order URL and the Code128 constructor only ever with
    the order-and-SKU string, in that order; two runs that both complete
    have handed the same two strings to the encoders. *)
Theorem payloads_do_not_depend_on_the_run (L1 L2 : Libraries)
    (fs1 fs2 : gmap string bytes) (ro1 ro2 : gset string) :
  let t1 := trace (run (L:=L1) fs1 ro1).2 in
  let t2 := trace (run (L:=L2) fs2 ro2).2 in
  (∀ d o, (QrMake d, o) ∈ t1 →
          d = "https://www.thednalabstore.com/order/ORD-2025-001") ∧
  (∀ d o, (NewBarcode d, o) ∈ t1 → d = "ORD-2025-001|TS-001") ∧
  encoder_payloads t1
    `prefix_of` ["https://www.thednalabstore.com/order/ORD-2025-001";
                 "ORD-2025-001|TS-001"] ∧
  ((run (L:=L1) fs1 ro1).1 = Ok tt → (run (L:=L2) fs2 ro2).1 = Ok tt →
   encoder_payloads t1 = encoder_payloads t2 ∧
   encoder_payloads t1
   = ["https://www.thednalabstore.com/order/ORD-2025-001";
      "ORD-2025-001|TS-001"]).
Proof.
  intros t1 t2. repeat split.
  - intros d o. apply run_qr_payload.
  - intros d o. apply run_barcode_payload.
  - apply run_payloads_prefix.
  - subst t1 t2. by rewrite !run_payloads_complete.
  - by apply run_payloads_complete.
Qed.

Lemma payloads_do_not_depend_on_the_run_witness :
  let fs2 : gmap string bytes := {[ "qr.png" := [Byte.x00] ]} in
  encoder_payloads (trace (run (L:=Ref.libs) ∅ ∅).2)
  = encoder_payloads (trace (run (L:=Ref.libs) fs2 {["old.txt"]}).2) ∧
  encoder_payloads (trace (run (L:=Ref.libs) ∅ ∅).2)
  = ["https://www.thednalabstore.com/order/ORD-2025-001";
     "ORD-2025-001|TS-001"].
Proof.
  intros fs2.
  apply (payloads_do_not_depend_on_the_run
           Ref.libs Ref.libs ∅ fs2 ∅ {["old.txt"]});
    vm_compute; reflexivity.
Defined.

(** ** Failures *)

(** C4.  The script has no handler: a call that raises is the last call of
    the run and the run ends with that very exception; a run that ends with
    an exception got it from its last library call; and no statement is
    run twice or out of order. *)
Theorem exceptions_propagate_uncaught (L : Libraries)
    (fs : gmap string bytes) (ro : gset string) :
  (∀ pre c e post,
     trace (run fs ro).2 = (pre ++ (c, Raised e) :: post)%list →
     post = [] ∧ (run fs ro).1 = Raise e) ∧
  (∀ e, (run fs ro).1 = Raise e →
        ∃ pre c, trace (run fs ro).2 = (pre ++ [(c, Raised e)])%list) ∧
  calls_of (trace (run fs ro).2) `prefix_of` script_calls.
Proof.
  split; [|split].
  - intros pre c e post Ht.
    assert (post = []) as ->
      by (eapply returned_before_last; [apply run_stops_at_raise | exact Ht]).
    split; [done|]. by rewrite run_verdict, Ht, verdict_snoc.
  - intros e He. rewrite run_verdict in He.
    destruct (trace (run fs ro).2) as [|ev t] using rev_ind; [done|].
    destruct ev as [c o]. rewrite verdict_snoc in He.
    destruct o; simplify_eq. by eexists _, _.
  - apply run_calls_prefix.
Qed.

Lemma exceptions_propagate_uncaught_witness :
  (run (L:=Ref.libs) ∅ {["qr.png"]}).1 = Raise (PermissionError "qr.png").
Proof.
  refine (proj2 (proj1 (exceptions_propagate_uncaught Ref.libs ∅ {["qr.png"]})
            [ (Import "qrcode", Returned); (Import "barcode", Returned);
              (ImportFrom "barcode.writer" "ImageWriter", Returned);
              (QrMake order_url, Returned) ]
            (ImageSave "qr.png") (PermissionError "qr.png") [] _)).
  vm_compute. reflexivity.
Defined.

(** ** Under the contract of the libraries *)

Lemma not_encodable_iff (s : string) :
  code128_encodable s = false ↔
  ∃ c, In c (list_ascii_of_string s) ∧ code128_supported c = false.
Proof.
  unfold code128_encodable.
  induction (list_ascii_of_string s) as [|a l IH]; simpl.
  - split; [done | by intros (c & [] & _)].
  - rewrite andb_false_iff, IH. split.
    + intros [Ha | (c & Hc & Hs)]; [by exists a; auto | by exists c; auto].
    + intros (c & [<- | Hc] & Hs); [by left | right; by exists c].
Qed.

Ltac list_mem := apply list_elem_of_In; simpl; tauto.

Section Contract.
Context {L : Libraries} {R : Readers} (HL : Lawful L R).
Implicit Types (fs : gmap string bytes) (ro : gset string).

Lemma qr_make_fits (s : string) :
  (String.length s ≤ qr_capacity)%nat → ∃ img, qrcode_make s = Ok img.
Proof.
  intros Hlen. apply qr_make_capacity in Hlen.
  destruct (qrcode_make s) as [img|]; [by exists img | done].
Qed.

Lemma barcode_new_encodable cls s wr :
  get_barcode_class "code128" = Ok cls →
  code128_encodable s = true →
  ∃ code, barcode_new cls s wr = Ok code.
Proof.
  intros Hcls Hs. pose proof (code128_charset cls s wr Hcls) as Hnew.
  rewrite Hs in Hnew.
  destruct (barcode_new cls s wr) as [code|]; [by exists code | done].
Qed.

(** What a reader recovers from the two files of a completed run. *)
Lemma run_complete_decodes fs ro (wr : image_writer) :
  ImageWriter_new = Ok wr →
  (run fs ro).1 = Ok tt →
  files (run fs ro).2 !! qr_path ≫= qr_decode = Some order_url ∧
  files (run fs ro).2 !! barcode_filename wr barcode_base ≫= code128_decode
  = Some barcode_payload.
Proof.
  intros Hwr Hok. run_cases. split.
  - rewrite lookup_insert_ne by (symmetry; apply (qr_path_not_barcode wr)).
    rewrite lookup_insert_eq. simpl. by eapply qr_roundtrip.
  - rewrite lookup_insert_eq. simpl. by eapply code128_roundtrip.
Qed.
End Contract.

(** C1.  With both packages installed, a QR encoder whose capacity covers
    the URL and ['qr.png'] writable, a run calls the QR encoder with exactly
    the order URL, saves under ['qr.png'], and leaves there a file that a QR
    reader decodes to that same URL. *)
Theorem qr_file_decodes_to_order_url (L : Libraries) (R : Readers)
    (HL : Lawful L R) (HI : Installed L)
    (fs : gmap string bytes) (ro : gset string) :
  (String.length order_url ≤ qr_capacity)%nat →
  "qr.png" ∉ ro →
  (QrMake "https://www.thednalabstore.com/order/ORD-2025-001", Returned)
    ∈ trace (run fs ro).2 ∧
  (ImageSave "qr.png", Returned) ∈ trace (run fs ro).2 ∧
  ∃ png : bytes,
    files (run fs ro).2 !! "qr.png" = Some png ∧
    qr_decode png = Some "https://www.thednalabstore.com/order/ORD-2025-001".
Proof.
  intros Hcap Hrw.
  destruct (qr_make_fits HL _ Hcap) as [img Himg].
  pose proof (qr_roundtrip _ _ Himg) as Hdec.
  pose proof qrcode_installed. pose proof barcode_installed.
  pose proof writer_importable.
  run_cases; try done.
  all: split; [list_mem|]; split; [list_mem|]; eexists; split; [|exact Hdec].
  all: try by rewrite lookup_insert_eq.
  match goal with wr : image_writer |- _ =>
    rewrite lookup_insert_ne by (symmetry; apply (qr_path_not_barcode wr))
  end.
  by rewrite lookup_insert_eq.
Qed.

Lemma qr_file_decodes_to_order_url_witness :
  ∃ png : bytes,
    files (run (L:=Ref.libs) ∅ ∅).2 !! "qr.png" = Some png ∧
    Ref.read_tagged Ref.qr_tag png
    = Some "https://www.thednalabstore.com/order/ORD-2025-001".
Proof.
  refine (proj2 (proj2 (qr_file_decodes_to_order_url
            Ref.libs Ref.readers ref_lawful ref_installed ∅ ∅ _ _))).
  - vm_compute. lia.
  - set_solver.
Defined.

(** C2.  The string given to the Code128 constructor is the order
    identifier, a bar and the SKU.  With both packages installed, lawful
    encoders and both targets writable, the run completes, calls the
    constructor with exactly that string, and leaves under ['barcode'] plus
    the writer's extension a file that a Code128 reader decodes to it. *)
Theorem barcode_file_decodes_to_order_and_sku (L : Libraries) (R : Readers)
    (HL : Lawful L R) (HI : Installed L)
    (fs : gmap string bytes) (ro : gset string) (wr : image_writer) :
  ImageWriter_new = Ok wr →
  (String.length order_url ≤ qr_capacity)%nat →
  "qr.png" ∉ ro →
  "barcode" ++ "." ++ writer_ext wr ∉ ro →
  barcode_payload = order_id ++ "|" ++ sku ∧
  barcode_payload = "ORD-2025-001|TS-001" ∧
  (run fs ro).1 = Ok tt ∧
  (NewBarcode (order_id ++ "|" ++ sku), Returned) ∈ trace (run fs ro).2 ∧
  ∃ data : bytes,
    files (run fs ro).2 !! ("barcode" ++ "." ++ writer_ext wr) = Some data ∧
    code128_decode data = Some (order_id ++ "|" ++ sku).
Proof.
  intros Hwr Hcap Hqr Hbc.
  destruct (qr_make_fits HL _ Hcap) as [img Himg].
  pose proof code128_known as Hcls.
  destruct (get_barcode_class "code128") as [cls|] eqn:Ecls; [clear Hcls|done].
  destruct (barcode_new_encodable HL cls barcode_payload wr Ecls eq_refl)
    as [code Hcode].
  pose proof (code128_renders code wr) as Hrender.
  destruct (barcode_render code wr) as [data|] eqn:Edata; [clear Hrender|done].
  pose proof (code128_roundtrip _ _ _ _ _ Ecls Hcode Edata) as Hdec.
  pose proof qrcode_installed. pose proof barcode_installed.
  pose proof writer_importable.
  do 2 (split; [reflexivity|]).
  change ("barcode" ++ "." ++ writer_ext wr)
    with (barcode_filename wr barcode_base) in *.
  run_cases; try done.
  split; [done|]. split; [list_mem|].
  eexists. split; [by rewrite lookup_insert_eq | exact Hdec].
Qed.

Lemma barcode_file_decodes_to_order_and_sku_witness :
  (run (L:=Ref.libs) ∅ ∅).1 = Ok tt ∧
  ∃ data : bytes,
    files (run (L:=Ref.libs) ∅ ∅).2 !! "barcode.png" = Some data ∧
    Ref.read_tagged Ref.c128_tag data = Some "ORD-2025-001|TS-001".
Proof.
  destruct (barcode_file_decodes_to_order_and_sku
              Ref.libs Ref.readers ref_lawful ref_installed ∅ ∅ tt)
    as (_ & _ & Hok & _ & Hfile).
  - reflexivity.
  - vm_compute. lia.
  - set_solver.
  - set_solver.
  - split; [exact Hok | exact Hfile].
Defined.

(** C9.  Every character of the barcode payload is in the Code128
    character set, so with a lawful encoder no run ever sees the [Code128]
    constructor raise. *)
Theorem barcode_payload_is_encodable (L : Libraries) (R : Readers)
    (HL : Lawful L R) (fs : gmap string bytes) (ro : gset string) :
  Forall (λ c, code128_supported c = true)
         (list_ascii_of_string "ORD-2025-001|TS-001") ∧
  code128_encodable barcode_payload = true ∧
  ∀ d e, (NewBarcode d, Raised e) ∉ trace (run fs ro).2.
Proof.
  split; [|split].
  - simpl. repeat constructor.
  - reflexivity.
  - intros d e Hin. run_cases; inv_elem Hin.
    match goal with
    | Hc : get_barcode_class _ = Ok ?cls, Hn : barcode_new ?cls _ ?wr = Raise _
      |- _ =>
        destruct (barcode_new_encodable HL cls barcode_payload wr Hc eq_refl)
          as [code Hcode]; congruence
    end.
Qed.

Lemma barcode_payload_is_encodable_witness :
  code128_encodable barcode_payload = true ∧
  (NewBarcode barcode_payload, Raised (IllegalCharacterError barcode_payload))
    ∉ trace (run (L:=Ref.libs) ∅ ∅).2.
Proof.
  destruct (barcode_payload_is_encodable Ref.libs Ref.readers ref_lawful ∅ ∅)
    as (_ & Henc & Hnever).
  split; [exact Henc | apply Hnever].
Defined.

(** The contract says nothing about the image writer, so it still holds
    when the writer cannot be constructed. *)
Lemma without_image_writer_lawful (L : Libraries) (R : Readers) :
  Lawful L R → Lawful (without_image_writer L) R.
Proof.
  intros HL. split; simpl.
  - apply qr_make_capacity.
  - apply qr_roundtrip.
  - apply code128_known.
  - apply code128_charset.
  - apply code128_renders.
  - apply code128_roundtrip.
Qed.

Lemma save_calls_app (t1 t2 : list event) :
  save_calls (t1 ++ t2) = (save_calls t1 ++ save_calls t2)%list.
Proof. unfold save_calls, calls_of. by rewrite map_app, List.filter_app. Qed.

(** Unencodable payload and unwritable destination are not the only
    causes of failure: the barcode block can fail although every character
    of the payload is in the Code128 character set and no path at all is
    unwritable.  Here the encoders meet the contract but no imaging backend
    is installed. *)
Lemma barcode_fails_on_good_payload_and_writable_disk :
  let L := without_image_writer Ref.libs in
  let σ := boot ∅ ∅ in
  let r := generate_barcode (L:=L) "ORD-2025-001|TS-001" "barcode" σ in
  Lawful L Ref.readers ∧
  ¬ (is_ok r.1 = false ↔
     (∃ c, In c (list_ascii_of_string "ORD-2025-001|TS-001") ∧
           code128_supported c = false) ∨
     (∃ p : string, p ∈ locked σ)).
Proof.
  split; [exact (without_image_writer_lawful _ _ ref_lawful)|].
  intros [Hfail _].
  destruct (Hfail eq_refl) as [Hbad | [p Hp]].
  - apply not_encodable_iff in Hbad. discriminate Hbad.
  - simpl in Hp. set_solver.
Qed.

Ltac use_eqs :=
  repeat match goal with
         | H : ?x = _ |- context [?x] => rewrite H
         | H : ?x = _, H' : context [?x] |- _ => rewrite H in H'
         end.

(** C5 (amended).  The barcode block fails exactly when one of its calls
    fails (the symbology lookup, [ImageWriter()], the [Code128] constructor
    on the payload, the rendering) or the destination file cannot be
    written.  When the constructor rejects the payload it is the call that
    raises: [save] is never reached and no file is created or changed.
    With encoders that meet the contract, the block fails exactly when the
    image writer cannot be constructed, the payload has a character outside
    the Code128 character set, or the destination cannot be written; and an
    unencodable payload always leaves the disk unchanged with no [save]
    call made. *)
Theorem barcode_failure_causes (L : Libraries)
    (payload base : string) (σ : State) :
  let unencodable :=
    ∃ c, In c (list_ascii_of_string payload) ∧ code128_supported c = false in
  let r := generate_barcode payload base σ in
  (is_ok r.1 = false ↔
   is_ok (get_barcode_class "code128") = false ∨
   is_ok ImageWriter_new = false ∨
   ∃ cls wr,
     get_barcode_class "code128" = Ok cls ∧ ImageWriter_new = Ok wr ∧
     (is_ok (barcode_new cls payload wr) = false ∨
      (∃ code, barcode_new cls payload wr = Ok code ∧
               is_ok (barcode_render code wr) = false) ∨
      base ++ "." ++ writer_ext wr ∈ locked σ)) ∧
  (∀ cls wr,
     get_barcode_class "code128" = Ok cls → ImageWriter_new = Ok wr →
     is_ok (barcode_new cls payload wr) = false →
     ∃ e, r.1 = Raise e ∧
          files r.2 = files σ ∧
          locked r.2 = locked σ ∧
          trace r.2 = (trace σ ++ [ (GetBarcodeClass "code128", Returned);
                                    (NewImageWriter, Returned);
                                    (NewBarcode payload, Raised e) ])%list) ∧
  (∀ R : Readers, Lawful L R →
     (is_ok r.1 = false ↔
      is_ok ImageWriter_new = false ∨
      unencodable ∨
      ∃ wr, ImageWriter_new = Ok wr ∧
            base ++ "." ++ writer_ext wr ∈ locked σ) ∧
     (unencodable →
      is_ok r.1 = false ∧
      files r.2 = files σ ∧
      locked r.2 = locked σ ∧
      save_calls (trace r.2) = save_calls (trace σ))).
Proof.
  intros unencodable r. subst unencodable r.
  split; [|split].
  - destruct (get_barcode_class "code128") as [cls|e1] eqn:E1;
      [|run_cases; simpl; split; [by auto | done]].
    destruct ImageWriter_new as [wr|e2] eqn:E2;
      [|run_cases; simpl; split; [by auto | done]].
    destruct (barcode_new cls payload wr) as [code|e3] eqn:E3.
    2: { run_cases; simpl. split; [intros _|done].
         right; right. exists cls, wr. use_eqs. by auto. }
    destruct (barcode_render code wr) as [data|e4] eqn:E4.
    2: { run_cases; simpl. split; [intros _|done].
         right; right. exists cls, wr.
         repeat split; try done. right; left. exists code. by use_eqs. }
    run_cases; simpl.
    + split; [intros _|done]. right; right. exists cls, wr.
      repeat split; try done. by right; right.
    + split; [done|].
      intros [?|[?|(cls' & wr' & ? & ? & Hc)]]; simplify_eq.
      destruct Hc as [Hc|[(code' & Hc & Hr)|Hc]]; use_eqs; simplify_eq;
        use_eqs; done.
  - intros cls wr Hcls Hwr Hnew. run_cases; simpl in Hnew; try done.
    eexists. by rewrite <- !app_assoc.
  - intros R HL. rewrite <- not_encodable_iff.
    pose proof code128_known as Hcls.
    destruct (get_barcode_class "code128") as [cls|] eqn:Ecls; [clear Hcls|done].
    destruct ImageWriter_new as [wr|ew] eqn:Ewr.
    + pose proof (code128_charset cls payload wr Ecls) as Hnew.
      destruct (barcode_new cls payload wr) as [code|e] eqn:Ecode;
        simpl in Hnew.
      * pose proof (code128_renders code wr) as Hrender.
        destruct (barcode_render code wr) as [data|] eqn:Edata; [|done].
        run_cases; simpl; split.
        -- split; [intros _; right; right; by exists wr | done].
        -- congruence.
        -- split; [done|].
           intros [?|[?|(wr' & ? & ?)]]; simplify_eq; [congruence | done].
        -- congruence.
      * run_cases; simpl. split; [split; [by auto | done]|].
        intros _. repeat split; try done.
        rewrite <- !app_assoc, save_calls_app. simpl.
        by rewrite app_nil_r.
    + run_cases; simpl. split; [split; [by auto | done]|].
      intros _. repeat split; try done.
      rewrite <- !app_assoc, save_calls_app. simpl. by rewrite app_nil_r.
Qed.

Lemma barcode_failure_causes_witness :
  let bad : string := String "200"%char "RD-2025-001|TS-001" in
  let r := generate_barcode (L:=Ref.libs) bad "barcode" (boot ∅ ∅) in
  is_ok r.1 = false ∧
  files r.2 = ∅ ∧
  locked r.2 = ∅ ∧
  save_calls (trace r.2) = [].
Proof.
  intros bad r.
  refine (proj2 (proj2 (proj2 (barcode_failure_causes
                                 Ref.libs bad "barcode" (boot ∅ ∅)))
                   Ref.readers ref_lawful) _).
  exists "200"%char. split; [left; reflexivity | reflexivity].
Defined.

(** C7.  Run the script, then run it again on the files the first run left
    behind, possibly with an encoder that draws its images differently.
    If both runs complete, a reader gets the same payload from each run's
    QR file and from each run's barcode file: the order URL and the
    order-and-SKU string. *)
Theorem rerun_decodes_the_same (L1 L2 : Libraries) (R : Readers)
    (HL1 : Lawful L1 R) (HL2 : Lawful L2 R)
    (fs : gmap string bytes) (ro : gset string)
    (wr1 : image_writer (Libraries:=L1)) (wr2 : image_writer (Libraries:=L2)) :
  let r1 := run (L:=L1) fs ro in
  let r2 := run (L:=L2) (files r1.2) (locked r1.2) in
  ImageWriter_new = Ok wr1 →
  ImageWriter_new = Ok wr2 →
  r1.1 = Ok tt →
  r2.1 = Ok tt →
  (files r1.2 !! "qr.png" ≫= qr_decode
   = files r2.2 !! "qr.png" ≫= qr_decode) ∧
  (files r1.2 !! ("barcode" ++ "." ++ writer_ext wr1) ≫= code128_decode
   = files r2.2 !! ("barcode" ++ "." ++ writer_ext wr2) ≫= code128_decode) ∧
  files r2.2 !! "qr.png" ≫= qr_decode
  = Some "https://www.thednalabstore.com/order/ORD-2025-001" ∧
  files r2.2 !! ("barcode" ++ "." ++ writer_ext wr2) ≫= code128_decode
  = Some "ORD-2025-001|TS-001".
Proof.
  intros r1 r2 Hwr1 Hwr2 Hok1 Hok2.
  destruct (run_complete_decodes HL1 fs ro wr1 Hwr1 Hok1) as [Hq1 Hb1].
  destruct (run_complete_decodes HL2 _ _ wr2 Hwr2 Hok2) as [Hq2 Hb2].
  unfold qr_path, barcode_filename, barcode_base, order_url, barcode_payload
    in *.
  subst r1 r2. by rewrite Hq1, Hq2, Hb1, Hb2.
Qed.

Lemma rerun_decodes_the_same_witness :
  let r1 := run (L:=Ref.libs) ∅ ∅ in
  let r2 := run (L:=Ref.libs) (files r1.2) (locked r1.2) in
  (files r1.2 !! "qr.png" ≫= Ref.read_tagged Ref.qr_tag
   = files r2.2 !! "qr.png" ≫= Ref.read_tagged Ref.qr_tag) ∧
  (files r1.2 !! "barcode.png" ≫= Ref.read_tagged Ref.c128_tag
   = files r2.2 !! "barcode.png" ≫= Ref.read_tagged Ref.c128_tag).
Proof.
  intros r1 r2.
  destruct (rerun_decodes_the_same Ref.libs Ref.libs Ref.readers
              ref_lawful ref_lawful ∅ ∅ tt tt)
    as (Hqr & Hbc & _); try (vm_compute; reflexivity).
  split; [exact Hqr | exact Hbc].
Defined.

(** * Further properties of the script

    All of them hold for every implementation of the library interface. *)

(** ** The order of the statements *)

(** X1.  The three imports come first: when one of them fails the run ends
    with an exception before any encoder or [save] is called and the disk
    is as it was.  In particular the QR code is not produced when only the
    barcode package is missing. *)
Theorem failed_import_stops_before_any_output (L : Libraries)
    (fs : gmap string bytes) (ro : gset string) :
  is_ok (import_module "qrcode") && is_ok (import_module "barcode")
    && is_ok (import_from "barcode.writer" "ImageWriter") = false →
  (∃ e, (run fs ro).1 = Raise e) ∧
  files (run fs ro).2 = fs ∧
  encoder_payloads (trace (run fs ro).2) = [] ∧
  save_calls (trace (run fs ro).2) = [].
Proof.
  intros Himp. run_cases; simpl in Himp; try done; by eauto.
Qed.

Lemma failed_import_stops_before_any_output_witness :
  (∃ e, (run (L:=without_package "barcode" Ref.libs) ∅ ∅).1 = Raise e) ∧
  files (run (L:=without_package "barcode" Ref.libs) ∅ ∅).2 = ∅ ∧
  encoder_payloads (trace (run (L:=without_package "barcode" Ref.libs) ∅ ∅).2)
  = [] ∧
  save_calls (trace (run (L:=without_package "barcode" Ref.libs) ∅ ∅).2) = [].
Proof.
  apply (failed_import_stops_before_any_output
           (without_package "barcode" Ref.libs) ∅ ∅).
  vm_compute. reflexivity.
Defined.

(** X2.  The barcode block comes after the QR block: when the QR image
    cannot be made or ['qr.png'] cannot be written, the run ends with an
    exception, nothing on disk has changed and no call of the barcode block
    has been made. *)
Theorem qr_failure_skips_the_barcode (L : Libraries)
    (fs : gmap string bytes) (ro : gset string) :
  is_ok (qrcode_make order_url) = false ∨ "qr.png" ∈ ro →
  (∃ e, (run fs ro).1 = Raise e) ∧
  files (run fs ro).2 = fs ∧
  calls_of (trace (run fs ro).2)
    `prefix_of` [ Import "qrcode"; Import "barcode";
                  ImportFrom "barcode.writer" "ImageWriter";
                  QrMake "https://www.thednalabstore.com/order/ORD-2025-001";
                  ImageSave "qr.png" ].
Proof.
  intros Hqr. run_cases; simpl in Hqr.
  all: try (destruct Hqr; done).
  all: split; [by eauto|]; split; [done|]; by eexists.
Qed.

Lemma qr_failure_skips_the_barcode_witness :
  (∃ e, (run (L:=Ref.libs) ∅ {["qr.png"]}).1 = Raise e) ∧
  files (run (L:=Ref.libs) ∅ {["qr.png"]}).2 = ∅ ∧
  calls_of (trace (run (L:=Ref.libs) ∅ {["qr.png"]}).2)
    `prefix_of` [ Import "qrcode"; Import "barcode";
                  ImportFrom "barcode.writer" "ImageWriter";
                  QrMake "https://www.thednalabstore.com/order/ORD-2025-001";
                  ImageSave "qr.png" ].
Proof.
  apply (qr_failure_skips_the_barcode Ref.libs ∅ {["qr.png"]}).
  right. set_solver.
Defined.



(** ** The two blocks, for any payload and any file name *)



(** ** Running again *)

